(** * GroupBuy Bot Core API: URL configuration (core/config/urls.py)

    A shallow embedding of the routing table [urlpatterns] and of the
    [health_check] view.  The module only says something once it is read
    by the framework it is written for, so the functions of Django that
    it calls or is evaluated by are embedded next to it:
    [django.urls.path] and [include], [RoutePattern.match] and the loop
    of [URLResolver.resolve], the reverse dictionary of
    [URLResolver._populate] and [reverse], [django.http.JsonResponse]
    with [json.dumps], and the resolve-then-call step of the request
    handler with [response_for_exception].  The included URLconfs
    ([users.urls], [procurements.urls], [chat.urls], [payments.urls],
    the admin site) and the two documentation views are collaborators
    and stay parameters: what they resolve, what their views return,
    which names their reverse dictionaries hold. *)

From Stdlib Require Import String Ascii List Bool Arith Lia Permutation.
Import ListNotations.
Open Scope string_scope.

Set Implicit Arguments.

(** ** Python strings *)

Module Str.

(** [p.startswith(r)] followed by [p[len(r):]]: the rest of [p] after the
    prefix [r], when [p] starts with [r]. *)
Fixpoint removeprefix (r p : string) : option string :=
  match r with
  | EmptyString => Some p
  | String a r' =>
      match p with
      | EmptyString => None
      | String b p' => if Ascii.eqb a b then removeprefix r' p' else None
      end
  end.

Definition startswith (p r : string) : bool :=
  match removeprefix r p with Some _ => true | None => false end.

(** The double quote character, code 34. *)
Definition dquote : string := String (ascii_of_nat 34) EmptyString.
Definition backslash : string := String (ascii_of_nat 92) EmptyString.

Definition hexdigit (n : nat) : string :=
  match get n "0123456789abcdef" with
  | Some c => String c EmptyString
  | None => EmptyString
  end.

End Str.

(** ** The JSON encoder behind [JsonResponse] *)

Module Json.

(** The Python values the encoder is applied to here: strings, and
    dictionaries with string keys, in insertion order. *)
#[warnings="-register-all"]
Inductive pyobj : Type :=
| PyStr (s : string)
| PyDict (items : list (string * pyobj)).

Definition is_dict (o : pyobj) : bool :=
  match o with PyDict _ => true | PyStr _ => false end.

(** [json.encoder.encode_basestring_ascii] on one character, for code
    points below 256: the double quote and the backslash are escaped,
    the usual control characters have short escapes, and anything else
    outside [' '..'~'] is written as [\u00XX]. *)
Definition escape_char (c : ascii) : string :=
  let n := nat_of_ascii c in
  if (n =? 34)%nat then Str.backslash ++ Str.dquote
  else if (n =? 92)%nat then Str.backslash ++ Str.backslash
  else if (n =? 8)%nat then Str.backslash ++ "b"
  else if (n =? 12)%nat then Str.backslash ++ "f"
  else if (n =? 10)%nat then Str.backslash ++ "n"
  else if (n =? 13)%nat then Str.backslash ++ "r"
  else if (n =? 9)%nat then Str.backslash ++ "t"
  else if ((32 <=? n) && (n <=? 126))%nat then String c EmptyString
  else Str.backslash ++ "u00" ++ Str.hexdigit (n / 16) ++ Str.hexdigit (n mod 16).

Fixpoint escape (s : string) : string :=
  match s with
  | EmptyString => EmptyString
  | String c s' => escape_char c ++ escape s'
  end.

Definition encode_basestring_ascii (s : string) : string :=
  Str.dquote ++ escape s ++ Str.dquote.

(** [json.dumps] with the default separators [", "] and [": "]. *)
Fixpoint dumps (o : pyobj) : string :=
  match o with
  | PyStr s => encode_basestring_ascii s
  | PyDict items =>
      "{" ++ String.concat ", "
               ((fix members (l : list (string * pyobj)) : list string :=
                   match l with
                   | [] => []
                   | (k, v) :: t =>
                       (encode_basestring_ascii k ++ ": " ++ dumps v) :: members t
                   end) items)
          ++ "}"
  end.

End Json.

(** ** Requests, responses and the effect monad of a view *)

Module Http.

Record HttpRequest : Type := {
  method : string;
  path_info : string;
  headers : list (string * string);
  body : string
}.

Record HttpResponse : Type := {
  status_code : nat;
  content_type : string;
  content : string
}.

(** The exceptions the request handler tells apart, and [OtherError]
    for every other one. *)
Inductive exn : Type :=
| Http404 (msg : string)
| PermissionDenied (msg : string)
| MultiPartParserError (msg : string)
| BadRequest (msg : string)
| SuspiciousOperation (msg : string)
| TypeError (msg : string)
| OtherError (msg : string).

Inductive result (A : Type) : Type :=
| Ok (a : A)
| Raise (e : exn).
Arguments Ok {A} a.
Arguments Raise {A} e.

(** A view runs against some state [S]; it returns a value or raises,
    and hands back the state. *)
Definition M (S A : Type) : Type := S -> result A * S.

Definition ret {S A} (a : A) : M S A := fun s => (Ok a, s).
Definition raise {S A} (e : exn) : M S A := fun s => (Raise e, s).
Definition bind {S A B} (m : M S A) (k : A -> M S B) : M S B :=
  fun s => match m s with
           | (Ok a, s') => k a s'
           | (Raise e, s') => (Raise e, s')
           end.

(** [HttpResponse(content=..., content_type=...)]: the status defaults
    to 200. *)
Definition mkHttpResponse (ctype data : string) : HttpResponse :=
  {| status_code := 200; content_type := ctype; content := data |}.

(** [JsonResponse(data)] with its defaults ([safe=True], no
    [json_dumps_params]): a non-dict is refused with [TypeError],
    a dict is serialised and sent as [application/json]. *)
Definition JsonResponse {S} (data : Json.pyobj) : M S HttpResponse :=
  if Json.is_dict data then
    ret (mkHttpResponse "application/json" (Json.dumps data))
  else
    raise (TypeError
      "In order to allow non-dict objects to be serialized set the safe parameter to False.").

(** The response classes [HttpResponseNotFound],
    [HttpResponseServerError], [HttpResponseBadRequest] and
    [HttpResponseForbidden]: an [HttpResponse] of the default content
    type whose status is 404, 500, 400 and 403. *)
Definition HttpResponseNotFound (page : string) : HttpResponse :=
  {| status_code := 404; content_type := "text/html; charset=utf-8"; content := page |}.
Definition HttpResponseServerError (page : string) : HttpResponse :=
  {| status_code := 500; content_type := "text/html; charset=utf-8"; content := page |}.
Definition HttpResponseBadRequest (page : string) : HttpResponse :=
  {| status_code := 400; content_type := "text/html; charset=utf-8"; content := page |}.
Definition HttpResponseForbidden (page : string) : HttpResponse :=
  {| status_code := 403; content_type := "text/html; charset=utf-8"; content := page |}.

End Http.

(** ** The URL dispatcher: [path], [include] and the resolver *)

Module Urls.

(** The callables bound in this table. *)
Inductive view : Type :=
| health_check_view
| SpectacularAPIView_as_view
| SpectacularSwaggerView_as_view (url_name : string).

(** An included URLconf: the admin site's own, or a module given by its
    dotted name. *)
Inductive urlconf : Type :=
| AdminSite
| UrlModule (dotted : string).

(** The second argument of [path]: a callable, or the tuple that
    [include(...)] and [admin.site.urls] evaluate to. *)
Inductive path_arg : Type :=
| Callable (v : view)
| Included (u : urlconf).

Definition include (module : string) : path_arg := Included (UrlModule module).

(** What [path] builds. *)
Inductive url_entry : Type :=
| URLPattern (route : string) (callback : view) (name : option string)
| URLResolver (route : string) (conf : urlconf).

(** [path(route, view, name=None)]: a tuple gives a resolver whose
    pattern is not an endpoint (and the name is dropped), a callable
    gives an endpoint pattern. *)
Definition path (route : string) (v : path_arg) (name : option string) : url_entry :=
  match v with
  | Included u => URLResolver route u
  | Callable f => URLPattern route f name
  end.

Definition entry_route (e : url_entry) : string :=
  match e with
  | URLPattern r _ _ => r
  | URLResolver r _ => r
  end.

Definition is_endpoint (e : url_entry) : bool :=
  match e with
  | URLPattern _ _ _ => true
  | URLResolver _ _ => false
  end.

Definition entry_name (e : url_entry) : option string :=
  match e with
  | URLPattern _ _ n => n
  | URLResolver _ _ => None
  end.

(** [RoutePattern.match] for a route without converters: an endpoint
    matches the whole path, any other pattern matches a prefix and
    returns the rest of the path. *)
Definition RoutePattern_match (route : string) (endpoint : bool) (p : string)
  : option string :=
  if endpoint then
    if String.eqb p route then Some EmptyString else None
  else Str.removeprefix route p.

Definition pattern_matches (p : string) (e : url_entry) : bool :=
  match RoutePattern_match (entry_route e) (is_endpoint e) p with
  | Some _ => true
  | None => false
  end.

Section Resolver.

(** The included URLconfs are collaborators: what they resolve a
    remaining path to is theirs to say. *)
Variable ext_view : Type.
Variable sub_resolve : urlconf -> string -> option ext_view.

Inductive ResolverMatch : Type :=
| MatchView (func : view) (url_name : option string) (route : string)
| MatchIncluded (conf : urlconf) (route : string) (sub_match : ext_view).

(** [URLPattern.resolve] and [URLResolver.resolve] of one entry;
    [None] stands for both "no match" and [Resolver404]. *)
Definition entry_resolve (e : url_entry) (p : string) : option ResolverMatch :=
  match e with
  | URLPattern route callback name =>
      match RoutePattern_match route true p with
      | Some _ => Some (MatchView callback name route)
      | None => None
      end
  | URLResolver route conf =>
      match RoutePattern_match route false p with
      | Some new_path =>
          match sub_resolve conf new_path with
          | Some m => Some (MatchIncluded conf route m)
          | None => None
          end
      | None => None
      end
  end.

(** The loop of [URLResolver.resolve] over [url_patterns]: the first
    entry that resolves the path wins; an entry that does not is
    skipped. *)
Fixpoint resolve_patterns (patterns : list url_entry) (p : string)
  : option ResolverMatch :=
  match patterns with
  | [] => None
  | e :: rest =>
      match entry_resolve e p with
      | Some m => Some m
      | None => resolve_patterns rest p
      end
  end.

(** The root resolver: its pattern is [^/], so the leading slash of
    [path_info] is consumed before the table is tried. *)
Definition resolve (patterns : list url_entry) (path_info : string)
  : option ResolverMatch :=
  match Str.removeprefix "/" path_info with
  | Some new_path => resolve_patterns patterns new_path
  | None => None
  end.

(** First-match dispatch as the specification words it: take the
    first entry whose pattern matches the path, and hand the request
    to what is bound there. *)
Definition first_match_dispatch (patterns : list url_entry) (p : string)
  : option ResolverMatch :=
  match find (pattern_matches p) patterns with
  | Some e => entry_resolve e p
  | None => None
  end.

End Resolver.

Arguments MatchView {ext_view} func url_name route.
Arguments MatchIncluded {ext_view} conf route sub_match.

(** The names the entries of a table carry themselves. *)
Definition named (name : string) (e : url_entry) : bool :=
  match entry_name e with
  | Some n => String.eqb n name
  | None => false
  end.

Section Reverse.

(** What the included URLconfs bring to reverse lookup is theirs to
    say: whether a module sets [app_name], and the reverse dictionary of
    its own resolver, here the names it holds, each with the path it
    reverses to without arguments, in lookup order. *)
Variable module_app_name : string -> option string.
Variable sub_reverse_dict : urlconf -> list (string * string).

(** The [app_name] of an include tuple: [admin.site.urls] carries
    ["admin"], [include(module)] what the module sets. *)
Definition urlconf_app_name (conf : urlconf) : option string :=
  match conf with
  | AdminSite => Some "admin"
  | UrlModule m => module_app_name m
  end.

(** What one entry appends to the lookups in [URLResolver._populate]:
    a named pattern its name and route; an included URLconf that sets
    an [app_name] nothing (it becomes a namespace); any other included
    URLconf every name of its own reverse dictionary, the mount route
    put in front of the path. *)
Definition entry_lookups (e : url_entry) : list (string * string) :=
  match e with
  | URLPattern route _ (Some n) => [(n, route)]
  | URLPattern _ _ None => []
  | URLResolver route conf =>
      match urlconf_app_name conf with
      | Some _ => []
      | None => map (fun kv => (fst kv, route ++ snd kv)) (sub_reverse_dict conf)
      end
  end.

(** [_populate] walks [reversed(url_patterns)] and appends as it goes. *)
Definition populate (patterns : list url_entry) : list (string * string) :=
  flat_map entry_lookups (rev patterns).

(** The candidates [reverse(name)] goes through, in order, for a name
    without namespace and a call without arguments; paths are relative
    to the script prefix. *)
Definition reverse_candidates (patterns : list url_entry) (name : string)
  : list string :=
  map snd (filter (fun kv => String.eqb (fst kv) name) (populate patterns)).

(** [reverse(name)]: the first candidate; [None] is [NoReverseMatch]. *)
Definition reverse (patterns : list url_entry) (name : string) : option string :=
  hd_error (reverse_candidates patterns name).

(** Some URLconf included in the table, one that sets no [app_name],
    holds [name] in its reverse dictionary. *)
Definition merges (patterns : list url_entry) (name : string) : Prop :=
  exists route conf pat,
    In (URLResolver route conf) patterns
    /\ urlconf_app_name conf = None
    /\ In (name, pat) (sub_reverse_dict conf).

End Reverse.

Fixpoint registered_names (patterns : list url_entry) : list string :=
  match patterns with
  | [] => []
  | e :: rest =>
      match entry_name e with
      | Some n => n :: registered_names rest
      | None => registered_names rest
      end
  end.

(** No string of the list is a prefix of a later or an earlier one. *)
Fixpoint prefix_free (routes : list string) : bool :=
  match routes with
  | [] => true
  | r :: rest =>
      forallb (fun r' => negb (Str.startswith r' r) && negb (Str.startswith r r')) rest
      && prefix_free rest
  end.

End Urls.

Import Http Urls.

(** ** core/config/urls.py *)

(** [def health_check(request): return JsonResponse({'status': 'healthy'})] *)
Definition health_check {S : Type} (request : HttpRequest) : M S HttpResponse :=
  JsonResponse (Json.PyDict [("status", Json.PyStr "healthy")]).

Definition admin_site_urls : path_arg := Included AdminSite.

Definition urlpatterns : list url_entry :=
  [ path "admin/" admin_site_urls None;
    path "health/" (Callable health_check_view) (Some "health");
    path "api/users/" (include "users.urls") None;
    path "api/procurements/" (include "procurements.urls") None;
    path "api/chat/" (include "chat.urls") None;
    path "api/payments/" (include "payments.urls") None;
    path "api/schema/" (Callable SpectacularAPIView_as_view) (Some "schema");
    path "api/docs/" (Callable (SpectacularSwaggerView_as_view "schema"))
         (Some "swagger-ui") ].

(** The body [{"status": "healthy"}], character by character. *)
Definition healthy_body : string :=
  "{" ++ Str.dquote ++ "status" ++ Str.dquote ++ ": "
      ++ Str.dquote ++ "healthy" ++ Str.dquote ++ "}".

Definition healthy_response : HttpResponse :=
  {| status_code := 200; content_type := "application/json"; content := healthy_body |}.

(** The eight routes, in the order the table declares them. *)
Definition declared_routes : list string :=
  [ "admin/"; "health/"; "api/users/"; "api/procurements/"; "api/chat/";
    "api/payments/"; "api/schema/"; "api/docs/" ].

(** ** The request cycle around the table *)

Section Server.

(** The application state belongs to the collaborators: the included
    URLconfs and the documentation views read and write it; they are
    handed that state and nothing of this module. *)
Variable AppState : Type.
Variable ext_view : Type.
Variable sub_resolve : urlconf -> string -> option ext_view.
Variable call_included : urlconf -> ext_view -> HttpRequest -> M AppState HttpResponse.
Variable call_external : view -> HttpRequest -> M AppState HttpResponse.

(** The bodies of the framework's error pages. *)
Variable not_found_page server_error_page : string.
Variable bad_request_page permission_denied_page : string.

(** The process: the module-level list [urlpatterns] as the resolver
    holds it, and the application state. *)
Record Process : Type := {
  url_patterns : list url_entry;
  app_state : AppState
}.

(** Importing the module builds the table. *)
Definition startup (a : AppState) : Process :=
  {| url_patterns := urlpatterns; app_state := a |}.

Definition in_app {A : Type} (m : M AppState A) : M Process A :=
  fun st =>
    match m (app_state st) with
    | (r, a') => (r, {| url_patterns := url_patterns st; app_state := a' |})
    end.

Definition call_view (v : view) (request : HttpRequest) : M Process HttpResponse :=
  match v with
  | health_check_view => health_check request
  | SpectacularAPIView_as_view => in_app (call_external v request)
  | SpectacularSwaggerView_as_view _ => in_app (call_external v request)
  end.

Definition call_match (m : ResolverMatch ext_view) (request : HttpRequest)
  : M Process HttpResponse :=
  match m with
  | MatchView v _ _ => call_view v request
  | MatchIncluded conf _ sub => in_app (call_included conf sub request)
  end.

(** [response_for_exception] with the default error handlers (the
    module sets no [handler400], [handler403], [handler404] or
    [handler500]): not found is 404, permission denied 403, a bad or
    suspicious request 400, anything else 500. *)
Definition response_for_exception (e : exn) : HttpResponse :=
  match e with
  | Http404 _ => HttpResponseNotFound not_found_page
  | PermissionDenied _ => HttpResponseForbidden permission_denied_page
  | MultiPartParserError _ => HttpResponseBadRequest bad_request_page
  | BadRequest _ => HttpResponseBadRequest bad_request_page
  | SuspiciousOperation _ => HttpResponseBadRequest bad_request_page
  | TypeError _ => HttpResponseServerError server_error_page
  | OtherError _ => HttpResponseServerError server_error_page
  end.

(** The handler's [get_response]: resolve [path_info], call the view;
    an unresolved path raises [Resolver404], an [Http404], and an
    exception of the view is answered by [response_for_exception]. *)
Definition get_response (request : HttpRequest) (st : Process)
  : HttpResponse * Process :=
  match resolve sub_resolve (url_patterns st) (path_info request) with
  | None => (response_for_exception (Http404 (path_info request)), st)
  | Some m =>
      match call_match m request st with
      | (Ok response, st') => (response, st')
      | (Raise e, st') => (response_for_exception e, st')
      end
  end.

(** Serving a sequence of requests, one after the other. *)
Fixpoint serve (requests : list HttpRequest) (st : Process)
  : list HttpResponse * Process :=
  match requests with
  | [] => ([], st)
  | request :: rest =>
      match get_response request st with
      | (response, st') =>
          match serve rest st' with
          | (responses, st'') => (response :: responses, st'')
          end
      end
  end.

End Server.

(** A small stand-in for the collaborators, to run the table on. *)
Module Demo.

Definition sub_resolve (conf : urlconf) (rest : string) : option string :=
  match conf with
  | AdminSite => if String.eqb rest EmptyString then Some "admin:index" else None
  | UrlModule m => if String.eqb rest EmptyString then Some (m ++ ":list") else None
  end.

Definition call_included (conf : urlconf) (v : string) (request : HttpRequest)
  : M nat HttpResponse :=
  fun hits => (Ok (mkHttpResponse "application/json" v), S hits).

Definition call_external (v : view) (request : HttpRequest) : M nat HttpResponse :=
  fun hits => (Ok (mkHttpResponse "text/html" "docs"), S hits).

Definition not_found_page : string := "<h1>Not Found</h1>".
Definition server_error_page : string := "<h1>Server Error (500)</h1>".
Definition bad_request_page : string := "<h1>Bad Request (400)</h1>".
Definition permission_denied_page : string := "<h1>403 Forbidden</h1>".

(** [users.urls] sets an [app_name], the other modules do not;
    [payments.urls] registers a [schema] and a [health] of its own. *)
Definition module_app_name (m : string) : option string :=
  if String.eqb m "users.urls" then Some "users" else None.

Definition sub_reverse_dict (conf : urlconf) : list (string * string) :=
  match conf with
  | AdminSite => [("index", EmptyString)]
  | UrlModule m =>
      if String.eqb m "payments.urls"
      then [("schema", "schema/"); ("health", "health/")]
      else [("list", EmptyString)]
  end.

(** A collaborator view that refuses every request. *)
Definition call_forbidden (conf : urlconf) (v : string) (request : HttpRequest)
  : M nat HttpResponse :=
  fun hits => (Raise (PermissionDenied "no"), hits).

Definition probe : HttpRequest :=
  {| method := "POST"; path_info := "/health/";
     headers := [("X-Probe", "lb")]; body := "ping" |}.

Definition get_schema : HttpRequest :=
  {| method := "GET"; path_info := "/api/schema/"; headers := []; body := EmptyString |}.

Definition get_docs : HttpRequest :=
  {| method := "GET"; path_info := "/api/docs/"; headers := []; body := EmptyString |}.

End Demo.

(** ** Strings: prefixes *)

Lemma removeprefix_app (r s : string) : Str.removeprefix r (r ++ s) = Some s.
Proof.
  induction r as [|a r IH]; simpl; [reflexivity|].
  now rewrite Ascii.eqb_refl.
Qed.

Lemma removeprefix_inv (r : string) :
  forall p s, Str.removeprefix r p = Some s -> p = r ++ s.
Proof.
  induction r as [|a r IH]; simpl; intros p s H.
  - now inversion H.
  - destruct p as [|b p]; [discriminate|].
    destruct (Ascii.eqb_spec a b) as [->|]; [|discriminate].
    now rewrite (IH _ _ H).
Qed.

Lemma startswith_refl (r : string) : Str.startswith r r = true.
Proof.
  unfold Str.startswith.
  replace r with (r ++ EmptyString) at 2.
  - now rewrite removeprefix_app.
  - induction r; simpl; congruence.
Qed.

(** Two prefixes of one string are comparable. *)
Lemma startswith_comparable (r1 : string) :
  forall r2 p,
    Str.startswith p r1 = true -> Str.startswith p r2 = true ->
    Str.startswith r2 r1 = true \/ Str.startswith r1 r2 = true.
Proof.
  unfold Str.startswith.
  induction r1 as [|a r1 IH]; intros r2 p H1 H2.
  - now left.
  - destruct r2 as [|b r2]; [now right|].
    destruct p as [|c p]; simpl in *; [discriminate|].
    destruct (Ascii.eqb_spec a c) as [->|]; [|discriminate].
    destruct (Ascii.eqb_spec b c) as [->|]; [|discriminate].
    rewrite Ascii.eqb_refl. eauto.
Qed.

(** ** The resolver loop on an arbitrary table *)

Section Dispatch.

Variable ext_view : Type.
Variable sub_resolve : urlconf -> string -> option ext_view.

Lemma pattern_matches_startswith (p : string) (e : url_entry) :
  pattern_matches p e = true -> Str.startswith p (entry_route e) = true.
Proof.
  unfold pattern_matches, RoutePattern_match.
  destruct e as [route cb name | route conf]; simpl.
  - destruct (String.eqb_spec p route) as [->|]; [|discriminate].
    intros _. apply startswith_refl.
  - intros H. exact H.
Qed.

Lemma entry_resolve_no_match (e : url_entry) (p : string) :
  pattern_matches p e = false -> entry_resolve sub_resolve e p = None.
Proof.
  unfold pattern_matches.
  destruct e as [route cb name | route conf];
    cbn [entry_resolve entry_route is_endpoint];
    [ destruct (RoutePattern_match route true p)
    | destruct (RoutePattern_match route false p) ]; congruence.
Qed.

Lemma resolve_patterns_no_match (l : list url_entry) (p : string) :
  filter (pattern_matches p) l = [] -> resolve_patterns sub_resolve l p = None.
Proof.
  induction l as [|e l IH]; simpl; [reflexivity|].
  destruct (pattern_matches p e) eqn:E; [discriminate|].
  intros H. now rewrite (entry_resolve_no_match _ _ E), IH.
Qed.

(** Where at most one entry matches, the loop comes down to that entry. *)
Lemma resolve_patterns_unique (l : list url_entry) (p : string) :
  length (filter (pattern_matches p) l) <= 1 ->
  resolve_patterns sub_resolve l p =
    match filter (pattern_matches p) l with
    | e :: _ => entry_resolve sub_resolve e p
    | [] => None
    end.
Proof.
  induction l as [|e l IH]; simpl; [reflexivity|].
  destruct (pattern_matches p e) eqn:E; simpl; intros H.
  - assert (Hnil : filter (pattern_matches p) l = [])
      by (destruct (filter (pattern_matches p) l); [reflexivity | simpl in H; lia]).
    rewrite (resolve_patterns_no_match _ _ Hnil).
    now destruct (entry_resolve sub_resolve e p).
  - now rewrite (entry_resolve_no_match _ _ E), IH.
Qed.

Lemma find_head_filter (A : Type) (f : A -> bool) (l : list A) :
  find f l = match filter f l with x :: _ => Some x | [] => None end.
Proof.
  induction l as [|x l IH]; simpl; [reflexivity|].
  now destruct (f x).
Qed.

Lemma first_match_unique (l : list url_entry) (p : string) :
  length (filter (pattern_matches p) l) <= 1 ->
  resolve_patterns sub_resolve l p = first_match_dispatch sub_resolve l p.
Proof.
  intros H. unfold first_match_dispatch.
  rewrite (resolve_patterns_unique _ _ H), find_head_filter.
  now destruct (filter (pattern_matches p) l).
Qed.

(** In a table whose routes are prefix-free, a path matches at most one
    entry. *)
Lemma prefix_free_at_most_one (l : list url_entry) :
  prefix_free (map entry_route l) = true ->
  forall p, length (filter (pattern_matches p) l) <= 1.
Proof.
  induction l as [|e l IH]; simpl; intros H p; [lia|].
  apply andb_true_iff in H as [Hall Hfree].
  destruct (pattern_matches p e) eqn:E; [|now apply IH].
  assert (Hnil : filter (pattern_matches p) l = []).
  { rewrite forallb_forall in Hall.
    clear IH Hfree.
    induction l as [|e' l IHl]; simpl; [reflexivity|].
    destruct (pattern_matches p e') eqn:E'.
    - exfalso.
      specialize (Hall (entry_route e') (or_introl eq_refl)).
      apply andb_true_iff in Hall as [H1 H2].
      apply negb_true_iff in H1, H2.
      destruct (startswith_comparable _ _ _ (pattern_matches_startswith _ _ E)
                  (pattern_matches_startswith _ _ E')); congruence.
    - apply IHl. intros r Hr. apply Hall. now right. }
  simpl. rewrite Hnil. simpl. lia.
Qed.

(** Reordering a table in which a path matches at most one entry does not
    change what the path resolves to. *)
Lemma resolve_patterns_permutation (l l' : list url_entry) (p : string) :
  Permutation l l' ->
  length (filter (pattern_matches p) l) <= 1 ->
  resolve_patterns sub_resolve l' p = resolve_patterns sub_resolve l p.
Proof.
  intros HP Hlen.
  assert (HPf : Permutation (filter (pattern_matches p) l)
                            (filter (pattern_matches p) l')).
  { clear Hlen. induction HP; simpl.
    - constructor.
    - destruct (pattern_matches p x); [now constructor | assumption].
    - destruct (pattern_matches p x), (pattern_matches p y);
        try apply Permutation_refl; apply perm_swap.
    - eapply Permutation_trans; eassumption. }
  assert (Hlen' : length (filter (pattern_matches p) l') <= 1)
    by (rewrite <- (Permutation_length HPf); exact Hlen).
  rewrite (resolve_patterns_unique _ _ Hlen), (resolve_patterns_unique _ _ Hlen').
  destruct (filter (pattern_matches p) l) as [|e [|e2 t]] eqn:F.
  - apply Permutation_nil in HPf. now rewrite HPf.
  - apply Permutation_length_1_inv in HPf. now rewrite HPf.
  - simpl in Hlen. lia.
Qed.

End Dispatch.

(** ** The table of core/config/urls.py *)

Example dumps_healthy :
  Json.dumps (Json.PyDict [("status", Json.PyStr "healthy")]) = healthy_body.
Proof. reflexivity. Qed.

Lemma urlpatterns_routes : map entry_route urlpatterns = declared_routes.
Proof. reflexivity. Qed.

Lemma urlpatterns_prefix_free : prefix_free (map entry_route urlpatterns) = true.
Proof. reflexivity. Qed.

Lemma urlpatterns_at_most_one (p : string) :
  length (filter (pattern_matches p) urlpatterns) <= 1.
Proof. apply prefix_free_at_most_one, urlpatterns_prefix_free. Qed.

Lemma startswith_false_no_match (p : string) (l : list url_entry) :
  (forall r, In r (map entry_route l) -> Str.startswith p r = false) ->
  filter (pattern_matches p) l = [].
Proof.
  induction l as [|e l IH]; simpl; intros H; [reflexivity|].
  destruct (pattern_matches p e) eqn:E.
  - apply pattern_matches_startswith in E.
    rewrite (H (entry_route e)) in E by now left. discriminate.
  - apply IH. intros r Hr. apply H. now right.
Qed.

(** ** What a matching entry resolves to, and the reverse dictionary *)

Section Matching.

Variable ext_view : Type.
Variable sub_resolve : urlconf -> string -> option ext_view.

Lemma entry_resolve_matching (e : url_entry) (p : string) :
  pattern_matches p e = true ->
  match e with
  | URLPattern route callback name =>
      p = route
      /\ entry_resolve sub_resolve e p = Some (MatchView callback name route)
  | URLResolver route conf =>
      exists rest,
        p = route ++ rest
        /\ entry_resolve sub_resolve e p
           = match sub_resolve conf rest with
             | Some m => Some (MatchIncluded conf route m)
             | None => None
             end
  end.
Proof.
  unfold pattern_matches.
  destruct e as [route cb name | route conf];
    cbn [entry_resolve entry_route is_endpoint]; unfold RoutePattern_match.
  - destruct (String.eqb_spec p route) as [->|]; [|discriminate].
    intros _. now split.
  - destruct (Str.removeprefix route p) as [rest|] eqn:E; [|discriminate].
    intros _. exists rest. split; [now apply removeprefix_inv | reflexivity].
Qed.

End Matching.

Section ReverseDictionary.

Unset Implicit Arguments.

Variable module_app_name : string -> option string.
Variable sub_reverse_dict : urlconf -> list (string * string).
Variable name : string.

Local Abbreviation piece :=
  (fun e : url_entry =>
     map snd (filter (fun kv : string * string => String.eqb (fst kv) name)
                     (entry_lookups module_app_name sub_reverse_dict e))).

Lemma reverse_candidates_pieces (l : list url_entry) :
  reverse_candidates module_app_name sub_reverse_dict l name
  = flat_map piece (rev l).
Proof.
  unfold reverse_candidates, populate.
  induction (rev l) as [|e l' IH]; [reflexivity|].
  cbn [flat_map]. now rewrite filter_app, map_app, IH.
Qed.

Lemma pattern_piece (route : string) (v : view) (n : option string) :
  piece (URLPattern route v n)
  = if named name (URLPattern route v n) then [route] else [].
Proof.
  unfold named. destruct n as [n|]; cbn [entry_lookups entry_name filter fst];
    [|reflexivity].
  now destruct (String.eqb n name).
Qed.

Lemma include_piece_inv (route : string) (conf : urlconf) (c : string) :
  In c (piece (URLResolver route conf)) ->
  urlconf_app_name module_app_name conf = None
  /\ exists pat, In (name, pat) (sub_reverse_dict conf) /\ c = route ++ pat.
Proof.
  cbn [entry_lookups].
  destruct (urlconf_app_name module_app_name conf); [intros []|].
  intros H. split; [reflexivity|].
  apply in_map_iff in H as [[k path] [<- H]].
  apply filter_In in H as [H E].
  apply in_map_iff in H as [[k' pat] [H Hd]].
  cbn [fst snd] in *. injection H as <- <-.
  apply String.eqb_eq in E. subst k'.
  exists pat. now split.
Qed.

Lemma include_piece_nil (l : list url_entry) (route : string) (conf : urlconf) :
  ~ merges module_app_name sub_reverse_dict l name ->
  In (URLResolver route conf) l ->
  piece (URLResolver route conf) = [].
Proof.
  intros Hm Hin.
  destruct (piece (URLResolver route conf)) as [|c t] eqn:E; [reflexivity|].
  exfalso. apply Hm.
  destruct (include_piece_inv route conf c) as [Happ [pat [Hd _]]].
  - rewrite E. now left.
  - exists route, conf, pat. now repeat split.
Qed.

(** Where no included URLconf merges the name, the candidates are the
    routes of the table's own entries of that name, last entry first. *)
Lemma reverse_candidates_own (l : list url_entry) :
  ~ merges module_app_name sub_reverse_dict l name ->
  reverse_candidates module_app_name sub_reverse_dict l name
  = map entry_route (filter (named name) (rev l)).
Proof.
  intros Hm. rewrite reverse_candidates_pieces.
  assert (H : forall e, In e (rev l) -> In e l) by (intros e; apply in_rev).
  induction (rev l) as [|e l' IH]; [reflexivity|].
  cbn [flat_map filter]. rewrite IH by (intros e' He'; apply H; now right).
  destruct e as [route v n | route conf].
  - rewrite pattern_piece. now destruct (named name (URLPattern route v n)).
  - rewrite (include_piece_nil l route conf Hm) by (apply H; now left).
    reflexivity.
Qed.

(** An entry of the table that carries the name is among the
    candidates, whatever the included URLconfs hold. *)
Lemma own_entry_is_candidate (l : list url_entry) (route : string) (v : view) :
  In (URLPattern route v (Some name)) l ->
  In route (reverse_candidates module_app_name sub_reverse_dict l name).
Proof.
  intros H. rewrite reverse_candidates_pieces.
  apply in_flat_map. exists (URLPattern route v (Some name)).
  split; [now apply in_rev in H|].
  rewrite pattern_piece. unfold named. cbn [entry_name].
  rewrite String.eqb_refl. now left.
Qed.

Lemma candidate_reverses (l : list url_entry) (route : string) :
  In route (reverse_candidates module_app_name sub_reverse_dict l name) ->
  exists first, reverse module_app_name sub_reverse_dict l name = Some first.
Proof.
  unfold reverse.
  destruct (reverse_candidates module_app_name sub_reverse_dict l name) as [|c t];
    [intros [] | intros _; now exists c].
Qed.

End ReverseDictionary.

Section Properties.

Unset Implicit Arguments.

Variable AppState : Type.
Variable ext_view : Type.
Variable sub_resolve : urlconf -> string -> option ext_view.
Variable call_included : urlconf -> ext_view -> HttpRequest -> M AppState HttpResponse.
Variable call_external : view -> HttpRequest -> M AppState HttpResponse.
Variable not_found_page server_error_page : string.
Variable bad_request_page permission_denied_page : string.
Variable module_app_name : string -> option string.
Variable sub_reverse_dict : urlconf -> list (string * string).

Local Abbreviation handle :=
  (get_response sub_resolve call_included call_external
                not_found_page server_error_page
                bad_request_page permission_denied_page).
Local Abbreviation run :=
  (serve sub_resolve call_included call_external
         not_found_page server_error_page
         bad_request_page permission_denied_page).
Local Abbreviation on_error :=
  (response_for_exception not_found_page server_error_page
                          bad_request_page permission_denied_page).
Local Abbreviation candidates :=
  (reverse_candidates module_app_name sub_reverse_dict urlpatterns).
Local Abbreviation reverse_name :=
  (reverse module_app_name sub_reverse_dict urlpatterns).

Lemma health_check_run (S : Type) (request : HttpRequest) (s : S) :
  health_check request s = (Ok healthy_response, s).
Proof. reflexivity. Qed.

Lemma get_response_keeps_table (request : HttpRequest) (st : Process AppState) :
  url_patterns (snd (handle request st)) = url_patterns st.
Proof.
  unfold get_response.
  destruct (resolve sub_resolve (url_patterns st) (path_info request)) as [m|];
    [|reflexivity].
  destruct m as [v n r | conf r sub]; simpl.
  - destruct v; simpl; try reflexivity;
      unfold in_app; destruct (call_external _ request (app_state st)) as [[?|?] ?];
      reflexivity.
  - unfold in_app.
    destruct (call_included conf sub request (app_state st)) as [[?|?] ?];
      reflexivity.
Qed.

Lemma serve_keeps_table (requests : list HttpRequest) :
  forall st : Process AppState,
    url_patterns (snd (run requests st)) = url_patterns st.
Proof.
  induction requests as [|request rest IH]; intros st; simpl; [reflexivity|].
  pose proof (get_response_keeps_table request st) as H1.
  destruct (get_response sub_resolve call_included call_external
                         not_found_page server_error_page
                         bad_request_page permission_denied_page request st)
    as [response st'] eqn:E1.
  specialize (IH st').
  destruct (serve sub_resolve call_included call_external
                  not_found_page server_error_page
                  bad_request_page permission_denied_page rest st')
    as [responses st''] eqn:E2.
  simpl in *. congruence.
Qed.

(** C1: every request whose path is the health path is resolved to
    [health_check] and answered with status 200 and the body
    [{"status": "healthy"}], whatever its method, headers and body; the
    handler itself returns that one response on every request. *)
Theorem health_path_returns_healthy (request : HttpRequest) (st : Process AppState) :
  url_patterns st = urlpatterns ->
  path_info request = "/health/" ->
  resolve sub_resolve (url_patterns st) (path_info request)
    = Some (MatchView health_check_view (Some "health") "health/")
  /\ fst (handle request st) = healthy_response
  /\ status_code (fst (handle request st)) = 200
  /\ content (fst (handle request st)) = healthy_body
  /\ (forall other : HttpRequest,
        fst (health_check other st) = Ok healthy_response).
Proof.
  intros Ht Hp.
  assert (R : resolve sub_resolve (url_patterns st) (path_info request)
              = Some (MatchView health_check_view (Some "health") "health/")).
  { rewrite Ht, Hp. unfold resolve. simpl Str.removeprefix.
    unfold urlpatterns, path, admin_site_urls, include. simpl.
    reflexivity. }
  assert (G : fst (handle request st) = healthy_response).
  { unfold get_response. rewrite R. reflexivity. }
  repeat split; try assumption; rewrite G; reflexivity.
Qed.

(** C6: [health_check] has no side effects and no error condition: on any
    request and any state, of whatever type, it returns the constant
    response normally and hands the state back as it was; called inside
    the process, neither the routing table nor the application state
    changes. *)
Theorem health_check_no_side_effects
        (S : Type) (request : HttpRequest) (s : S) (st : Process AppState) :
  health_check request s = (Ok healthy_response, s)
  /\ (forall e : exn, fst (health_check request s) <> Raise e)
  /\ call_view call_external health_check_view request st = (Ok healthy_response, st).
Proof.
  rewrite health_check_run. simpl.
  split; [reflexivity|]. split; [discriminate|].
  apply health_check_run.
Qed.

(** C8: the table built at startup has the eight declared bindings, and
    after serving any sequence of requests the process still holds that
    very list: same entries, same order. *)
Theorem urlpatterns_immutable (requests : list HttpRequest) (a : AppState) :
  url_patterns (startup a) = urlpatterns
  /\ length urlpatterns = 8
  /\ map entry_route urlpatterns = declared_routes
  /\ url_patterns (snd (run requests (startup a))) = urlpatterns.
Proof.
  repeat split. apply serve_keeps_table.
Qed.

(** C2: a path that begins with [api/<domain>/], for the domains users,
    procurements, chat and payments, matches the entry that includes
    [<domain>.urls] and no other entry of the table, and dispatch is
    exactly what that included URLconf resolves the rest of the path
    to. *)
Theorem api_prefix_dispatches_to_included_router (domain rest : string) :
  In domain ["users"; "procurements"; "chat"; "payments"] ->
  filter (pattern_matches ("api/" ++ domain ++ "/" ++ rest)) urlpatterns
    = [path ("api/" ++ domain ++ "/") (include (domain ++ ".urls")) None]
  /\ resolve_patterns sub_resolve urlpatterns ("api/" ++ domain ++ "/" ++ rest)
     = match sub_resolve (UrlModule (domain ++ ".urls")) rest with
       | Some m => Some (MatchIncluded (UrlModule (domain ++ ".urls"))
                                       ("api/" ++ domain ++ "/") m)
       | None => None
       end.
Proof.
  intros [<-|[<-|[<-|[<-|[]]]]]; (split; [reflexivity|]); simpl;
    destruct (sub_resolve _ rest); reflexivity.
Qed.

(** C7: a path that begins with [admin/] matches the admin entry and no
    other entry of the table, and dispatch is exactly what
    [admin.site.urls] resolves the rest of the path to. *)
Theorem admin_prefix_dispatches_to_admin_site (rest : string) :
  filter (pattern_matches ("admin/" ++ rest)) urlpatterns
    = [path "admin/" admin_site_urls None]
  /\ resolve_patterns sub_resolve urlpatterns ("admin/" ++ rest)
     = match sub_resolve AdminSite rest with
       | Some m => Some (MatchIncluded AdminSite "admin/" m)
       | None => None
       end.
Proof.
  split; [reflexivity|]. simpl.
  destruct (sub_resolve AdminSite rest); reflexivity.
Qed.

(** C3: a path that starts with none of the eight registered routes
    matches no entry of the table, resolves to nothing, and the request is
    answered by the framework's not-found response; [/nope/] is such a
    path. *)
Theorem unregistered_path_not_found
        (p : string) (request : HttpRequest) (st : Process AppState) :
  (forall r, In r declared_routes -> Str.startswith p r = false) ->
  url_patterns st = urlpatterns ->
  path_info request = "/" ++ p ->
  filter (pattern_matches p) urlpatterns = []
  /\ resolve_patterns sub_resolve urlpatterns p = None
  /\ handle request st = (HttpResponseNotFound not_found_page, st)
  /\ status_code (fst (handle request st)) = 404
  /\ filter (pattern_matches "nope/") urlpatterns = []
  /\ resolve sub_resolve urlpatterns "/nope/" = None.
Proof.
  intros Hp Ht Hr.
  assert (F : filter (pattern_matches p) urlpatterns = [])
    by (apply startswith_false_no_match; rewrite urlpatterns_routes; exact Hp).
  assert (R : resolve_patterns sub_resolve urlpatterns p = None)
    by (apply resolve_patterns_no_match, F).
  assert (G : handle request st = (HttpResponseNotFound not_found_page, st)).
  { assert (R' : resolve sub_resolve urlpatterns ("/" ++ p) = None) by exact R.
    unfold get_response. now rewrite Ht, Hr, R'. }
  rewrite G. repeat split; assumption || reflexivity.
Qed.

(** C4: a request to [/api/schema/] is resolved to the schema view and
    handed to it, a request to [/api/docs/] is resolved to the viewer and
    handed to it: the answer is what that view returns.  The [url_name]
    the viewer was configured with is the name under which the table
    registers the schema view, at exactly one entry, and [reverse] of
    that name is [api/schema/] whatever names the included URLconfs
    hold, the schema entry being declared after every include. *)
Theorem schema_and_docs_views
        (schema_request docs_request : HttpRequest) (st : Process AppState) :
  url_patterns st = urlpatterns ->
  path_info schema_request = "/api/schema/" ->
  path_info docs_request = "/api/docs/" ->
  resolve sub_resolve urlpatterns (path_info schema_request)
    = Some (MatchView SpectacularAPIView_as_view (Some "schema") "api/schema/")
  /\ resolve sub_resolve urlpatterns (path_info docs_request)
     = Some (MatchView (SpectacularSwaggerView_as_view "schema")
                       (Some "swagger-ui") "api/docs/")
  /\ handle schema_request st
     = match call_external SpectacularAPIView_as_view schema_request (app_state st) with
       | (Ok response, a') =>
           (response, {| url_patterns := urlpatterns; app_state := a' |})
       | (Raise e, a') =>
           (on_error e, {| url_patterns := urlpatterns; app_state := a' |})
       end
  /\ handle docs_request st
     = match call_external (SpectacularSwaggerView_as_view "schema")
                           docs_request (app_state st) with
       | (Ok response, a') =>
           (response, {| url_patterns := urlpatterns; app_state := a' |})
       | (Raise e, a') =>
           (on_error e, {| url_patterns := urlpatterns; app_state := a' |})
       end
  /\ (forall n name route,
        resolve sub_resolve urlpatterns (path_info docs_request)
          = Some (MatchView (SpectacularSwaggerView_as_view n) name route) ->
        reverse_name n = Some "api/schema/"
        /\ filter (named n) urlpatterns
           = [URLPattern "api/schema/" SpectacularAPIView_as_view (Some n)]
        /\ resolve sub_resolve urlpatterns (path_info schema_request)
           = Some (MatchView SpectacularAPIView_as_view (Some n) "api/schema/")).
Proof.
  intros Ht Hs Hd.
  assert (S : resolve sub_resolve urlpatterns "/api/schema/"
              = Some (MatchView SpectacularAPIView_as_view (Some "schema")
                                "api/schema/")) by reflexivity.
  assert (D : resolve sub_resolve urlpatterns "/api/docs/"
              = Some (MatchView (SpectacularSwaggerView_as_view "schema")
                                (Some "swagger-ui") "api/docs/")) by reflexivity.
  split; [now rewrite Hs|]. split; [now rewrite Hd|].
  split; [|split].
  - unfold get_response. rewrite Ht, Hs, S.
    cbn [call_match call_view]. unfold in_app. rewrite Ht.
    destruct (call_external SpectacularAPIView_as_view schema_request (app_state st))
      as [[response|e] a']; reflexivity.
  - unfold get_response. rewrite Ht, Hd, D.
    cbn [call_match call_view]. unfold in_app. rewrite Ht.
    destruct (call_external (SpectacularSwaggerView_as_view "schema")
                            docs_request (app_state st))
      as [[response|e] a']; reflexivity.
  - intros n name route H. rewrite Hd, D in H.
    injection H as <- _ _. rewrite Hs. repeat split; reflexivity.
Qed.

(** C5: on this table dispatch is first-match over the declared order:
    take the first entry whose pattern matches the path; if it binds a
    view, the path is its route and the result is that view under its
    name; if it includes a URLconf, the result is what that URLconf
    resolves the rest of the path to; if there is none, nothing is
    resolved. *)
Theorem dispatch_is_first_match (p : string) :
  map entry_route urlpatterns = declared_routes
  /\ match find (pattern_matches p) urlpatterns with
     | Some (URLPattern route callback name) =>
         p = route
         /\ resolve_patterns sub_resolve urlpatterns p
            = Some (MatchView callback name route)
     | Some (URLResolver route conf) =>
         exists rest,
           p = route ++ rest
           /\ resolve_patterns sub_resolve urlpatterns p
              = match sub_resolve conf rest with
                | Some m => Some (MatchIncluded conf route m)
                | None => None
                end
     | None => resolve_patterns sub_resolve urlpatterns p = None
     end
  /\ resolve_patterns sub_resolve urlpatterns p
     = first_match_dispatch sub_resolve urlpatterns p.
Proof.
  split; [reflexivity|].
  pose proof (urlpatterns_at_most_one p) as Hone.
  split; [|now apply first_match_unique].
  rewrite (@resolve_patterns_unique ext_view sub_resolve urlpatterns p Hone).
  rewrite find_head_filter.
  destruct (filter (pattern_matches p) urlpatterns) as [|e t] eqn:F;
    [reflexivity|].
  assert (Hm : pattern_matches p e = true).
  { assert (Hin : In e (filter (pattern_matches p) urlpatterns))
      by (rewrite F; now left).
    now apply filter_In in Hin. }
  exact (@entry_resolve_matching ext_view sub_resolve e p Hm).
Qed.

(** C9: no registered route is a prefix of another one; hence a path
    matches at most one entry, and any reordering of the eight entries
    resolves every path as the declared order does. *)
Theorem routes_prefix_free_order_irrelevant (l' : list url_entry) (p : string) :
  Permutation urlpatterns l' ->
  (forall r1 r2,
      In r1 declared_routes -> In r2 declared_routes -> r1 <> r2 ->
      Str.startswith r2 r1 = false)
  /\ length (filter (pattern_matches p) urlpatterns) <= 1
  /\ resolve_patterns sub_resolve l' p = resolve_patterns sub_resolve urlpatterns p.
Proof.
  intros HP. split; [|split].
  - intros r1 r2 H1 H2 Hne. simpl in H1, H2.
    repeat (destruct H1 as [<-|H1];
            [ repeat (destruct H2 as [<-|H2];
                      [ first [ reflexivity | now elim Hne ] |]);
              contradiction |]).
    contradiction.
  - apply urlpatterns_at_most_one.
  - apply resolve_patterns_permutation; [exact HP | apply urlpatterns_at_most_one].
Qed.

(** C10: the names the table registers are health, schema and
    swagger-ui, pairwise distinct, and each is carried by exactly one
    entry, whose route is among the candidates of reverse lookup.
    Reverse lookup of each of them yields a route; where no included
    URLconf merges the name into the table's reverse dictionary, that
    route is the only candidate; and schema and swagger-ui, declared
    after every include, reverse to their own routes whatever the
    included URLconfs hold. *)
Theorem route_names_distinct (name : string) :
  In name (registered_names urlpatterns) ->
  registered_names urlpatterns = ["health"; "schema"; "swagger-ui"]
  /\ NoDup (registered_names urlpatterns)
  /\ (exists route v,
        filter (named name) urlpatterns = [URLPattern route v (Some name)]
        /\ In route (candidates name)
        /\ (~ merges module_app_name sub_reverse_dict urlpatterns name ->
            candidates name = [route] /\ reverse_name name = Some route))
  /\ (exists route, reverse_name name = Some route)
  /\ reverse_name "schema" = Some "api/schema/"
  /\ reverse_name "swagger-ui" = Some "api/docs/".
Proof.
  intros H. split; [reflexivity|]. split.
  { simpl.
    repeat (constructor;
            [ simpl; intros Hn;
              repeat (destruct Hn as [Hn|Hn]; [discriminate Hn|]); exact Hn |]).
    constructor. }
  assert (Hown : exists route v,
             filter (named name) urlpatterns = [URLPattern route v (Some name)]
             /\ In (URLPattern route v (Some name)) urlpatterns).
  { simpl in H. destruct H as [<-|[<-|[<-|[]]]];
      do 2 eexists; (split; [reflexivity|]); simpl; auto 10. }
  destruct Hown as [route [v [Hf Hin]]].
  pose proof (own_entry_is_candidate module_app_name sub_reverse_dict name
                urlpatterns route v Hin) as Hc.
  split; [|split; [|split; reflexivity]].
  - exists route, v. split; [exact Hf|]. split; [exact Hc|].
    intros Hm.
    assert (E : candidates name = [route]).
    { rewrite (reverse_candidates_own module_app_name sub_reverse_dict name
                 urlpatterns Hm).
      rewrite filter_rev, Hf. reflexivity. }
    split; [exact E|]. unfold reverse. now rewrite E.
  - exact (candidate_reverses module_app_name sub_reverse_dict name
             urlpatterns route Hc).
Qed.

End Properties.

(** On a table with overlapping routes the resolver loop is not
    first-match: an included URLconf that does not resolve the rest of
    the path is skipped, and a later entry answers. *)
Remark resolver_loop_skips_unresolved_include :
  let table := [ URLResolver "api/" (UrlModule "users.urls");
                 URLPattern "api/x/" health_check_view None ] in
  resolve_patterns Demo.sub_resolve table "api/x/"
    = Some (MatchView health_check_view None "api/x/")
  /\ first_match_dispatch Demo.sub_resolve table "api/x/" = None.
Proof. split; reflexivity. Qed.

(** ** The statements above at concrete requests *)

Lemma health_path_returns_healthy_witness :
  path_info Demo.probe = "/health/"
  /\ fst (get_response Demo.sub_resolve Demo.call_included Demo.call_external
                       Demo.not_found_page Demo.server_error_page
    Demo.bad_request_page Demo.permission_denied_page
                       Demo.probe (startup 0))
     = healthy_response.
Proof.
  split; [reflexivity|].
  exact (proj1 (proj2 (health_path_returns_healthy
                         nat string Demo.sub_resolve Demo.call_included Demo.call_external
                         Demo.not_found_page Demo.server_error_page
    Demo.bad_request_page Demo.permission_denied_page
                         Demo.probe (startup 0) eq_refl eq_refl))).
Defined.

Lemma api_prefix_dispatches_to_included_router_witness :
  In "chat" ["users"; "procurements"; "chat"; "payments"]
  /\ resolve_patterns Demo.sub_resolve urlpatterns "api/chat/"
     = Some (MatchIncluded (UrlModule "chat.urls") "api/chat/" "chat.urls:list")
  /\ resolve_patterns Demo.sub_resolve urlpatterns "api/chat/rooms/" = None.
Proof.
  assert (H : In "chat" ["users"; "procurements"; "chat"; "payments"])
    by (simpl; tauto).
  split; [exact H|]. split.
  - exact (proj2 (api_prefix_dispatches_to_included_router
                    string Demo.sub_resolve "chat" EmptyString H)).
  - exact (proj2 (api_prefix_dispatches_to_included_router
                    string Demo.sub_resolve "chat" "rooms/" H)).
Defined.

Lemma unregistered_path_not_found_witness :
  (forall r, In r declared_routes -> Str.startswith "nope/" r = false)
  /\ get_response Demo.sub_resolve Demo.call_included Demo.call_external
                  Demo.not_found_page Demo.server_error_page
    Demo.bad_request_page Demo.permission_denied_page
                  {| method := "GET"; path_info := "/nope/"; headers := []; body := EmptyString |}
                  (startup 0)
     = (HttpResponseNotFound Demo.not_found_page, startup 0).
Proof.
  assert (H : forall r, In r declared_routes -> Str.startswith "nope/" r = false).
  { intros r Hr. simpl in Hr.
    repeat (destruct Hr as [<-|Hr]; [reflexivity|]). contradiction. }
  split; [exact H|].
  exact (proj1 (proj2 (proj2 (unregistered_path_not_found
                                nat string Demo.sub_resolve Demo.call_included Demo.call_external
                                Demo.not_found_page Demo.server_error_page
    Demo.bad_request_page Demo.permission_denied_page
                                "nope/"
                                {| method := "GET"; path_info := "/nope/";
                                   headers := []; body := EmptyString |}
                                (startup 0) H eq_refl eq_refl)))).
Defined.

Lemma routes_prefix_free_order_irrelevant_witness :
  Permutation urlpatterns (rev urlpatterns)
  /\ resolve_patterns Demo.sub_resolve (rev urlpatterns) "api/users/"
     = resolve_patterns Demo.sub_resolve urlpatterns "api/users/".
Proof.
  split; [apply Permutation_rev|].
  exact (proj2 (proj2 (routes_prefix_free_order_irrelevant
                         string Demo.sub_resolve (rev urlpatterns) "api/users/"
                         (Permutation_rev urlpatterns)))).
Defined.


Lemma schema_and_docs_views_witness :
  method Demo.get_schema = "GET" /\ method Demo.get_docs = "GET"
  /\ get_response Demo.sub_resolve Demo.call_included Demo.call_external
                  Demo.not_found_page Demo.server_error_page
                  Demo.bad_request_page Demo.permission_denied_page
                  Demo.get_docs (startup 0)
     = (mkHttpResponse "text/html" "docs",
        {| url_patterns := urlpatterns; app_state := 1 |})
  /\ reverse Demo.module_app_name Demo.sub_reverse_dict urlpatterns "schema"
     = Some "api/schema/".
Proof.
  split; [reflexivity|]. split; [reflexivity|].
  pose proof (schema_and_docs_views
                nat string Demo.sub_resolve Demo.call_included Demo.call_external
                Demo.not_found_page Demo.server_error_page
                Demo.bad_request_page Demo.permission_denied_page
                Demo.module_app_name Demo.sub_reverse_dict
                Demo.get_schema Demo.get_docs (startup 0)
                eq_refl eq_refl eq_refl) as [_ [H2 [_ [H4 H5]]]].
  split; [exact H4|].
  exact (proj1 (H5 "schema" (Some "swagger-ui") "api/docs/" H2)).
Defined.

(** A collaborator that registers names of its own without setting an
    [app_name] adds candidates: a second one for schema, behind the
    table's; for health it comes first and wins. *)
Remark plain_include_adds_candidates :
  reverse_candidates Demo.module_app_name Demo.sub_reverse_dict urlpatterns "schema"
    = ["api/schema/"; "api/payments/schema/"]
  /\ reverse_candidates Demo.module_app_name Demo.sub_reverse_dict urlpatterns "health"
     = ["api/payments/health/"; "health/"]
  /\ reverse Demo.module_app_name Demo.sub_reverse_dict urlpatterns "health"
     = Some "api/payments/health/".
Proof. repeat split; reflexivity. Qed.

Lemma route_names_distinct_witness :
  In "swagger-ui" (registered_names urlpatterns)
  /\ ~ merges Demo.module_app_name Demo.sub_reverse_dict urlpatterns "swagger-ui"
  /\ (exists route,
        reverse_candidates Demo.module_app_name Demo.sub_reverse_dict
                           urlpatterns "swagger-ui" = [route])
  /\ reverse Demo.module_app_name Demo.sub_reverse_dict urlpatterns "schema"
     = Some "api/schema/".
Proof.
  assert (H : In "swagger-ui" (registered_names urlpatterns)) by (simpl; tauto).
  assert (Hm : ~ merges Demo.module_app_name Demo.sub_reverse_dict
                        urlpatterns "swagger-ui").
  { intros [route [conf [pat [Hin [Happ Hd]]]]]. simpl in Hin.
    repeat (destruct Hin as [Hin|Hin];
            [ first [ discriminate Hin
                    | injection Hin as <- <-; simpl in Happ, Hd;
                      first [ discriminate Happ
                            | repeat (destruct Hd as [Hd|Hd]; [discriminate Hd|]);
                              exact Hd ] ] |]).
    exact Hin. }
  destruct (route_names_distinct Demo.module_app_name Demo.sub_reverse_dict
                                 "swagger-ui" H)
    as [_ [_ [[route [v [_ [_ Hone]]]] [_ [Hschema _]]]]].
  split; [exact H|]. split; [exact Hm|]. split; [|exact Hschema].
  exists route. exact (proj1 (Hone Hm)).
Defined.

(** ** More on strings: the prefix order *)

Lemma append_empty_r (s : string) : s ++ EmptyString = s.
Proof. induction s; simpl; congruence. Qed.

Lemma append_same_inv (r s : string) : r ++ s = r -> s = EmptyString.
Proof. induction r as [|a r IH]; simpl; intros H; [exact H | injection H; exact IH]. Qed.

Lemma startswith_app (r s : string) : Str.startswith (r ++ s) r = true.
Proof. unfold Str.startswith. now rewrite removeprefix_app. Qed.

Lemma startswith_trans (a : string) :
  forall b c,
    Str.startswith b a = true -> Str.startswith c b = true ->
    Str.startswith c a = true.
Proof.
  unfold Str.startswith.
  induction a as [|x a IH]; intros b c Hab Hbc; [reflexivity|].
  destruct b as [|y b]; simpl in Hab; [discriminate|].
  destruct (Ascii.eqb_spec x y) as [->|]; [|discriminate].
  destruct c as [|z c]; simpl in Hbc; [discriminate|].
  destruct (Ascii.eqb_spec y z) as [->|]; [|discriminate].
  simpl. rewrite Ascii.eqb_refl. eauto.
Qed.

Lemma startswith_antisym (a : string) :
  forall b, Str.startswith a b = true -> Str.startswith b a = true -> a = b.
Proof.
  unfold Str.startswith.
  induction a as [|x a IH]; intros b Hab Hba.
  - destruct b; [reflexivity | discriminate].
  - destruct b as [|y b]; simpl in Hba; [discriminate|].
    simpl in Hab.
    destruct (Ascii.eqb_spec y x) as [->|]; [|discriminate].
    rewrite Ascii.eqb_refl in Hba. f_equal. eauto.
Qed.

Lemma declared_routes_incomparable (r1 r2 : string) :
  In r1 declared_routes -> In r2 declared_routes -> r1 <> r2 ->
  Str.startswith r2 r1 = false.
Proof.
  intros H1 H2 Hne. simpl in H1, H2.
  repeat (destruct H1 as [<-|H1];
          [ repeat (destruct H2 as [<-|H2];
                    [ first [ reflexivity | now elim Hne ] |]);
            contradiction |]).
  contradiction.
Qed.

(** ** What a resolved match says about the path *)

Section Inversion.

Variable ext_view : Type.
Variable sub_resolve : urlconf -> string -> option ext_view.

Lemma entry_resolve_view_inv (e : url_entry) (p : string)
      (v : view) (n : option string) (r : string) :
  entry_resolve sub_resolve e p = Some (MatchView v n r) ->
  p = r /\ e = URLPattern r v n.
Proof.
  destruct e as [route cb name | route conf]; cbn [entry_resolve].
  - unfold RoutePattern_match.
    destruct (String.eqb_spec p route) as [->|]; [|discriminate].
    intros H. injection H as <- <- <-. now split.
  - destruct (RoutePattern_match route false p) as [rest|]; [|discriminate].
    destruct (sub_resolve conf rest); discriminate.
Qed.

Lemma entry_resolve_included_inv (e : url_entry) (p : string)
      (conf : urlconf) (r : string) (m : ext_view) :
  entry_resolve sub_resolve e p = Some (MatchIncluded conf r m) ->
  exists rest, p = r ++ rest /\ sub_resolve conf rest = Some m
               /\ e = URLResolver r conf.
Proof.
  destruct e as [route cb name | route conf']; cbn [entry_resolve].
  - destruct (RoutePattern_match route true p); discriminate.
  - unfold RoutePattern_match.
    destruct (Str.removeprefix route p) as [rest|] eqn:E; [|discriminate].
    destruct (sub_resolve conf' rest) as [m'|] eqn:S; [|discriminate].
    intros H. injection H as <- <- <-.
    exists rest. repeat split; [now apply removeprefix_inv | exact S].
Qed.

Lemma resolve_patterns_entry (l : list url_entry) (p : string)
      (m : ResolverMatch ext_view) :
  resolve_patterns sub_resolve l p = Some m ->
  exists e, In e l /\ entry_resolve sub_resolve e p = Some m.
Proof.
  induction l as [|e l IH]; simpl; [discriminate|].
  destruct (entry_resolve sub_resolve e p) as [m'|] eqn:E.
  - intros H. injection H as ->. exists e. split; [now left | exact E].
  - intros H. destruct (IH H) as [e' [Hin He']].
    exists e'. split; [now right | exact He'].
Qed.

End Inversion.

(** ** Further properties of the table and of the health probe *)

Section Coverage.

Unset Implicit Arguments.

Variable AppState : Type.
Variable ext_view : Type.
Variable sub_resolve : urlconf -> string -> option ext_view.
Variable call_included : urlconf -> ext_view -> HttpRequest -> M AppState HttpResponse.
Variable call_external : view -> HttpRequest -> M AppState HttpResponse.
Variable not_found_page server_error_page : string.
Variable bad_request_page permission_denied_page : string.
Variable module_app_name : string -> option string.
Variable sub_reverse_dict : urlconf -> list (string * string).

Local Abbreviation handle :=
  (get_response sub_resolve call_included call_external
                not_found_page server_error_page
                bad_request_page permission_denied_page).
Local Abbreviation run :=
  (serve sub_resolve call_included call_external
         not_found_page server_error_page
         bad_request_page permission_denied_page).
Local Abbreviation on_error :=
  (response_for_exception not_found_page server_error_page
                          bad_request_page permission_denied_page).
Local Abbreviation candidates :=
  (reverse_candidates module_app_name sub_reverse_dict urlpatterns).
Local Abbreviation reverse_name :=
  (reverse module_app_name sub_reverse_dict urlpatterns).

Lemma unresolved_step (p : string) (request : HttpRequest) (st : Process AppState) :
  resolve_patterns sub_resolve urlpatterns p = None ->
  url_patterns st = urlpatterns ->
  path_info request = "/" ++ p ->
  handle request st = (HttpResponseNotFound not_found_page, st).
Proof.
  intros R Ht Hp.
  assert (R' : resolve sub_resolve urlpatterns ("/" ++ p) = None) by exact R.
  unfold get_response. now rewrite Ht, Hp, R'.
Qed.

Lemma health_probe_step (request : HttpRequest) (st : Process AppState) :
  url_patterns st = urlpatterns ->
  path_info request = "/health/" ->
  handle request st = (healthy_response, st).
Proof.
  intros Ht Hp. unfold get_response. rewrite Ht, Hp. reflexivity.
Qed.

(** X1: the three routes bound to a view are endpoints: a path that goes
    on after [health/], [api/schema/] or [api/docs/] matches no entry
    and the request is answered 404, the state untouched. *)
Theorem endpoint_routes_are_exact
        (route rest : string) (request : HttpRequest) (st : Process AppState) :
  In route ["health/"; "api/schema/"; "api/docs/"] ->
  rest <> EmptyString ->
  url_patterns st = urlpatterns ->
  path_info request = "/" ++ route ++ rest ->
  filter (pattern_matches (route ++ rest)) urlpatterns = []
  /\ resolve_patterns sub_resolve urlpatterns (route ++ rest) = None
  /\ handle request st = (HttpResponseNotFound not_found_page, st).
Proof.
  intros Hr Hrest Ht Hp.
  assert (F : filter (pattern_matches (route ++ rest)) urlpatterns = []).
  { destruct rest as [|c rest]; [now elim Hrest|].
    destruct Hr as [<-|[<-|[<-|[]]]]; reflexivity. }
  assert (R : resolve_patterns sub_resolve urlpatterns (route ++ rest) = None)
    by (apply resolve_patterns_no_match, F).
  repeat split; try assumption.
  now apply unresolved_step with (p := route ++ rest).
Qed.

(** X2: a view of this table is reached only at exactly its own route:
    if a path resolves to a view, the path is the route of the entry that
    binds this view under this name, which is one of [health/],
    [api/schema/], [api/docs/]. *)
Theorem view_reached_only_at_its_route
        (p : string) (v : view) (n : option string) (r : string) :
  resolve_patterns sub_resolve urlpatterns p = Some (MatchView v n r) ->
  p = r
  /\ In (URLPattern r v n) urlpatterns
  /\ In r ["health/"; "api/schema/"; "api/docs/"].
Proof.
  intros H.
  apply resolve_patterns_entry in H as [e [Hin He]].
  apply entry_resolve_view_inv in He as [-> ->].
  split; [reflexivity|]. split; [exact Hin|].
  simpl in Hin.
  repeat (destruct Hin as [Hin|Hin];
          [ first [ discriminate Hin
                  | injection Hin as <- _ _; simpl; auto ] |]).
  contradiction.
Qed.

(** X3: delegation is sound: if a path resolves into an included URLconf,
    the path is the mount route followed by some rest, the URLconf is the
    one mounted there (the admin site or one of the four API modules),
    and the match is what that URLconf resolves the rest to. *)
Theorem included_match_comes_from_its_mount
        (p : string) (conf : urlconf) (r : string) (m : ext_view) :
  resolve_patterns sub_resolve urlpatterns p = Some (MatchIncluded conf r m) ->
  exists rest,
    p = r ++ rest
    /\ sub_resolve conf rest = Some m
    /\ In (r, conf) [ ("admin/", AdminSite);
                      ("api/users/", UrlModule "users.urls");
                      ("api/procurements/", UrlModule "procurements.urls");
                      ("api/chat/", UrlModule "chat.urls");
                      ("api/payments/", UrlModule "payments.urls") ].
Proof.
  intros H.
  apply resolve_patterns_entry in H as [e [Hin He]].
  apply entry_resolve_included_inv in He as [rest [Hp [Hs ->]]].
  exists rest. split; [exact Hp|]. split; [exact Hs|].
  simpl in Hin.
  repeat (destruct Hin as [Hin|Hin];
          [ first [ discriminate Hin
                  | injection Hin as <- <-; simpl; auto 8 ] |]).
  contradiction.
Qed.

(** X4: a path that stops short of a registered route (the route without
    its final slash, the empty path, any other proper prefix) matches no
    entry and resolves to nothing. *)
Theorem proper_prefix_of_route_unresolved (route p : string) :
  In route declared_routes ->
  Str.startswith route p = true ->
  p <> route ->
  filter (pattern_matches p) urlpatterns = []
  /\ resolve_patterns sub_resolve urlpatterns p = None.
Proof.
  intros Hr Hpre Hne.
  assert (F : filter (pattern_matches p) urlpatterns = []).
  { apply startswith_false_no_match. rewrite urlpatterns_routes.
    intros r' Hr'.
    destruct (Str.startswith p r') eqn:E; [exfalso | reflexivity].
    assert (Hrr : Str.startswith route r' = true)
      by (eapply startswith_trans; eassumption).
    destruct (String.eqb_spec r' route) as [->|Hd].
    - apply Hne. now apply startswith_antisym.
    - rewrite (declared_routes_incomparable r' route Hr' Hr Hd) in Hrr.
      discriminate. }
  split; [exact F | apply resolve_patterns_no_match, F].
Qed.

(** X5: a run of health probes is answered probe by probe with the
    healthy response, and the process is left exactly as it was. *)
Theorem health_probes_served (requests : list HttpRequest) (st : Process AppState) :
  url_patterns st = urlpatterns ->
  Forall (fun request => path_info request = "/health/") requests ->
  run requests st = (map (fun _ => healthy_response) requests, st).
Proof.
  intros Ht HF. induction HF as [|request rest Hp _ IH]; simpl; [reflexivity|].
  now rewrite (health_probe_step request st Ht Hp), IH.
Qed.

(** X6: health probes do not interfere: taking them out of a sequence of
    requests changes nothing in the state the process ends in. *)
Theorem health_probes_do_not_interfere
        (requests : list HttpRequest) (st : Process AppState) :
  url_patterns st = urlpatterns ->
  snd (run requests st)
  = snd (run (filter (fun request => negb (String.eqb (path_info request) "/health/"))
                     requests) st).
Proof.
  revert st. induction requests as [|request rest IH]; intros st Ht; [reflexivity|].
  cbn [filter].
  destruct (String.eqb_spec (path_info request) "/health/") as [Hp|Hp];
    cbn [negb serve].
  - rewrite (health_probe_step request st Ht Hp).
    rewrite <- (IH st Ht).
    now destruct (run rest st).
  - pose proof (get_response_keeps_table AppState ext_view sub_resolve call_included
                  call_external not_found_page server_error_page
                  bad_request_page permission_denied_page request st) as Hk.
    destruct (handle request st) as [response st'].
    simpl in Hk. rewrite Ht in Hk.
    specialize (IH st' Hk).
    destruct (run rest st') as [rs1 s1].
    destruct (run (filter (fun request0 => negb (String.eqb (path_info request0) "/health/"))
                          rest) st') as [rs2 s2].
    exact IH.
Qed.




(** X9: if a path resolves to a view registered under a name, reverse
    lookup of that name offers this path, and the table has no other
    entry of that name; it is the only candidate where no included
    URLconf merges the name; and for every name but health, whose entry
    alone is declared before the includes, [reverse] returns this path
    whatever the included URLconfs hold. *)
Theorem resolve_then_reverse
        (p : string) (v : view) (name r : string) :
  resolve_patterns sub_resolve urlpatterns p = Some (MatchView v (Some name) r) ->
  In p (candidates name)
  /\ filter (named name) urlpatterns = [URLPattern p v (Some name)]
  /\ (~ merges module_app_name sub_reverse_dict urlpatterns name ->
      candidates name = [p] /\ reverse_name name = Some p)
  /\ (name <> "health" -> reverse_name name = Some p).
Proof.
  intros H.
  apply resolve_patterns_entry in H as [e [Hin He]].
  apply entry_resolve_view_inv in He as [-> ->].
  assert (Hf : filter (named name) urlpatterns = [URLPattern r v (Some name)]
               /\ (name <> "health" -> reverse_name name = Some r)).
  { pose proof Hin as Hin'. simpl in Hin'.
    repeat (destruct Hin' as [Hin'|Hin'];
            [ first [ discriminate Hin'
                    | injection Hin' as <- <- <-;
                      split; [reflexivity|];
                      first [ intros _; reflexivity
                            | intros Hne; now elim Hne ] ] |]).
    contradiction. }
  destruct Hf as [Hf Hlate].
  split; [|split; [exact Hf|split; [|exact Hlate]]].
  - exact (own_entry_is_candidate module_app_name sub_reverse_dict name
             urlpatterns r v Hin).
  - intros Hm.
    assert (E : candidates name = [r]).
    { rewrite (reverse_candidates_own module_app_name sub_reverse_dict name
                 urlpatterns Hm).
      rewrite filter_rev, Hf. reflexivity. }
    split; [exact E|]. unfold reverse. now rewrite E.
Qed.

(** X10: the table adds nothing of its own to a mounted API: a request
    under [api/<domain>/] that the included URLconf resolves is answered
    with exactly what the collaborator's view returns, the state is the
    one that view leaves, and an exception it raises is answered as the
    handler answers exceptions: not found 404, permission denied 403, a
    bad or suspicious request 400, anything else 500. *)
Theorem mounted_request_gets_collaborators_response
        (domain rest : string) (m : ext_view)
        (request : HttpRequest) (st : Process AppState) :
  In domain ["users"; "procurements"; "chat"; "payments"] ->
  url_patterns st = urlpatterns ->
  path_info request = "/api/" ++ domain ++ "/" ++ rest ->
  sub_resolve (UrlModule (domain ++ ".urls")) rest = Some m ->
  handle request st
  = match call_included (UrlModule (domain ++ ".urls")) m request (app_state st) with
    | (Ok response, a') =>
        (response, {| url_patterns := urlpatterns; app_state := a' |})
    | (Raise e, a') =>
        (on_error e, {| url_patterns := urlpatterns; app_state := a' |})
    end
  /\ (forall e : exn,
        status_code (on_error e)
        = match e with
          | Http404 _ => 404
          | PermissionDenied _ => 403
          | MultiPartParserError _ => 400
          | BadRequest _ => 400
          | SuspiciousOperation _ => 400
          | TypeError _ => 500
          | OtherError _ => 500
          end).
Proof.
  intros Hd Ht Hp Hs.
  split; [|intros e; destruct e; reflexivity].
  unfold get_response. rewrite Hp, Ht.
  destruct Hd as [<-|[<-|[<-|[<-|[]]]]];
    cbn in Hs |- *; rewrite Hs; cbn; unfold in_app; rewrite Ht;
    match goal with
    | |- context [call_included ?c m request (app_state st)] =>
        destruct (call_included c m request (app_state st)) as [[response|e] a']
    end; reflexivity.
Qed.

End Coverage.

(** ** The further properties at concrete requests *)

Lemma endpoint_routes_are_exact_witness :
  get_response Demo.sub_resolve Demo.call_included Demo.call_external
               Demo.not_found_page Demo.server_error_page
    Demo.bad_request_page Demo.permission_denied_page
               {| method := "GET"; path_info := "/health/live";
                  headers := []; body := EmptyString |}
               (startup 0)
  = (HttpResponseNotFound Demo.not_found_page, startup 0).
Proof.
  refine (proj2 (proj2 (endpoint_routes_are_exact
                          nat string Demo.sub_resolve Demo.call_included
                          Demo.call_external Demo.not_found_page Demo.server_error_page
    Demo.bad_request_page Demo.permission_denied_page
                          "health/" "live"
                          {| method := "GET"; path_info := "/health/live";
                             headers := []; body := EmptyString |}
                          (startup 0) _ _ eq_refl eq_refl))).
  - simpl; tauto.
  - discriminate.
Defined.

Lemma view_reached_only_at_its_route_witness :
  resolve_patterns Demo.sub_resolve urlpatterns "api/docs/"
    = Some (MatchView (SpectacularSwaggerView_as_view "schema")
                      (Some "swagger-ui") "api/docs/")
  /\ In "api/docs/" ["health/"; "api/schema/"; "api/docs/"].
Proof.
  split; [reflexivity|].
  exact (proj2 (proj2 (view_reached_only_at_its_route
                         string Demo.sub_resolve "api/docs/"
                         (SpectacularSwaggerView_as_view "schema")
                         (Some "swagger-ui") "api/docs/" eq_refl))).
Defined.

Lemma included_match_comes_from_its_mount_witness :
  exists rest,
    "api/chat/" = "api/chat/" ++ rest
    /\ Demo.sub_resolve (UrlModule "chat.urls") rest = Some "chat.urls:list"
    /\ In ("api/chat/", UrlModule "chat.urls")
          [ ("admin/", AdminSite);
            ("api/users/", UrlModule "users.urls");
            ("api/procurements/", UrlModule "procurements.urls");
            ("api/chat/", UrlModule "chat.urls");
            ("api/payments/", UrlModule "payments.urls") ].
Proof.
  exact (included_match_comes_from_its_mount
           string Demo.sub_resolve "api/chat/" (UrlModule "chat.urls")
           "api/chat/" "chat.urls:list" eq_refl).
Defined.

Lemma proper_prefix_of_route_unresolved_witness :
  Str.startswith "api/users/" "api/users" = true
  /\ resolve_patterns Demo.sub_resolve urlpatterns "api/users" = None.
Proof.
  split; [reflexivity|].
  refine (proj2 (proper_prefix_of_route_unresolved
                   string Demo.sub_resolve "api/users/" "api/users" _ eq_refl _)).
  - simpl; tauto.
  - discriminate.
Defined.

Lemma health_probes_served_witness :
  serve Demo.sub_resolve Demo.call_included Demo.call_external
        Demo.not_found_page Demo.server_error_page
    Demo.bad_request_page Demo.permission_denied_page
        [Demo.probe; Demo.probe] (startup 7)
  = ([healthy_response; healthy_response], startup 7).
Proof.
  refine (health_probes_served
            nat string Demo.sub_resolve Demo.call_included Demo.call_external
            Demo.not_found_page Demo.server_error_page
    Demo.bad_request_page Demo.permission_denied_page
            [Demo.probe; Demo.probe] (startup 7) eq_refl _).
  repeat constructor.
Defined.

Lemma health_probes_do_not_interfere_witness :
  app_state (snd (serve Demo.sub_resolve Demo.call_included Demo.call_external
                        Demo.not_found_page Demo.server_error_page
    Demo.bad_request_page Demo.permission_denied_page
                        [Demo.probe; Demo.get_docs; Demo.probe] (startup 0)))
  = app_state (snd (serve Demo.sub_resolve Demo.call_included Demo.call_external
                          Demo.not_found_page Demo.server_error_page
    Demo.bad_request_page Demo.permission_denied_page
                          [Demo.get_docs] (startup 0))).
Proof.
  exact (f_equal (@app_state nat)
           (health_probes_do_not_interfere
              nat string Demo.sub_resolve Demo.call_included Demo.call_external
              Demo.not_found_page Demo.server_error_page
    Demo.bad_request_page Demo.permission_denied_page
              [Demo.probe; Demo.get_docs; Demo.probe] (startup 0) eq_refl)).
Defined.



Lemma resolve_then_reverse_witness :
  resolve_patterns Demo.sub_resolve urlpatterns "api/docs/"
    = Some (MatchView (SpectacularSwaggerView_as_view "schema")
                      (Some "swagger-ui") "api/docs/")
  /\ In "api/docs/"
        (reverse_candidates Demo.module_app_name Demo.sub_reverse_dict
                            urlpatterns "swagger-ui")
  /\ reverse Demo.module_app_name Demo.sub_reverse_dict urlpatterns "swagger-ui"
     = Some "api/docs/".
Proof.
  split; [reflexivity|].
  pose proof (resolve_then_reverse
                string Demo.sub_resolve Demo.module_app_name Demo.sub_reverse_dict
                "api/docs/" (SpectacularSwaggerView_as_view "schema")
                "swagger-ui" "api/docs/" eq_refl) as [H1 [_ [_ H4]]].
  split; [exact H1|]. apply H4. discriminate.
Defined.

Lemma mounted_request_gets_collaborators_response_witness :
  get_response Demo.sub_resolve Demo.call_included Demo.call_external
               Demo.not_found_page Demo.server_error_page
               Demo.bad_request_page Demo.permission_denied_page
               {| method := "GET"; path_info := "/api/payments/";
                  headers := []; body := EmptyString |}
               (startup 0)
  = (mkHttpResponse "application/json" "payments.urls:list",
     {| url_patterns := urlpatterns; app_state := 1 |})
  /\ get_response Demo.sub_resolve Demo.call_forbidden Demo.call_external
                  Demo.not_found_page Demo.server_error_page
                  Demo.bad_request_page Demo.permission_denied_page
                  {| method := "GET"; path_info := "/api/payments/";
                     headers := []; body := EmptyString |}
                  (startup 0)
     = (HttpResponseForbidden Demo.permission_denied_page, startup 0).
Proof.
  assert (H : In "payments" ["users"; "procurements"; "chat"; "payments"])
    by (simpl; tauto).
  split.
  - exact (proj1 (mounted_request_gets_collaborators_response
                    nat string Demo.sub_resolve Demo.call_included Demo.call_external
                    Demo.not_found_page Demo.server_error_page
                    Demo.bad_request_page Demo.permission_denied_page
                    "payments" EmptyString "payments.urls:list"
                    {| method := "GET"; path_info := "/api/payments/";
                       headers := []; body := EmptyString |}
                    (startup 0) H eq_refl eq_refl eq_refl)).
  - exact (proj1 (mounted_request_gets_collaborators_response
                    nat string Demo.sub_resolve Demo.call_forbidden Demo.call_external
                    Demo.not_found_page Demo.server_error_page
                    Demo.bad_request_page Demo.permission_denied_page
                    "payments" EmptyString "payments.urls:list"
                    {| method := "GET"; path_info := "/api/payments/";
                       headers := []; body := EmptyString |}
                    (startup 0) H eq_refl eq_refl eq_refl)).
Defined.
